(** * Gaze-tracking service: the attention scorer, the frame decoder and the
      WebSocket session loop of [python-gaze-service/gaze_service.py]

    The development embeds the service shallowly.  Python floats are the
    kernel's binary64 numbers, dictionaries are finite maps over strings,
    and the code that threads the shared estimator and raises exceptions is
    written in a state-and-exception monad over an explicit [world].  The
    libraries the service calls (json, base64, PIL, OpenCV, GazeTracking, the
    event-loop clock) are the fields of the class [Runtime]. *)

From Stdlib Require Import ZArith Floats Ascii String List Bool Lia.
From stdpp Require Import gmap strings.
Import ListNotations.

Set Warnings "-inexact-float,-register-all".
#[local] Open Scope string_scope.

(* ================================================================== *)
(** ** Python values *)

(** The values the service handles: what [json.loads] returns, what the
    estimator's accessors return, and the dictionaries built from them.
    A tuple is a [PyList] (it is what [json.dumps] makes of it). *)
Inductive pyval : Type :=
| PyNone
| PyBool (b : bool)
| PyInt (n : Z)
| PyFloat (x : float)
| PyStr (s : string)
| PyList (items : list pyval)
| PyDict (entries : gmap string pyval).

(** [bool(v)]: the truth value Python's [if v:] tests.  A NaN is true. *)
Definition py_truthy (v : pyval) : bool :=
  match v with
  | PyNone => false
  | PyBool b => b
  | PyInt n => negb (n =? 0)%Z
  | PyFloat x => negb (x =? 0)%float
  | PyStr s => negb (String.eqb s "")
  | PyList items => match items with [] => false | _ :: _ => true end
  | PyDict entries => negb (bool_decide (entries = ∅))
  end.

(** [v is None] *)
Definition is_None (v : pyval) : bool :=
  match v with PyNone => true | _ => false end.

(** [v == s] for a string literal [s] *)
Definition py_eq_str (v : pyval) (s : string) : bool :=
  match v with PyStr t => String.eqb t s | _ => false end.

(** [d.get(key, default)] on a dictionary *)
Definition dict_get (d : gmap string pyval) (key : string) (dflt : pyval) : pyval :=
  match d !! key with
  | Some v => v
  | None => dflt
  end.

(* ================================================================== *)
(** ** Strings: [in] and [split] with a one-character separator *)

(** [sep in s] *)
Fixpoint str_contains (sep : ascii) (s : string) : bool :=
  match s with
  | EmptyString => false
  | String c s' => if Ascii.eqb c sep then true else str_contains sep s'
  end.

(** [s.split(sep)]: every occurrence of [sep] ends a field; the result is
    never empty. *)
Fixpoint split (sep : ascii) (s : string) : list string :=
  match s with
  | EmptyString => [EmptyString]
  | String c s' =>
      if Ascii.eqb c sep then EmptyString :: split sep s'
      else match split sep s' with
           | field :: fields => String c field :: fields
           | [] => [String c EmptyString]
           end
  end.

Definition comma : ascii := ","%char.

(* ================================================================== *)
(** ** Binary64 arithmetic used by the scorer *)

#[local] Open Scope float_scope.

(** [max(a, b)] of Python: the first argument is kept unless the second
    compares greater. *)
Definition py_max (a b : float) : float := if a <? b then b else a.

(** The integer nearest to [m / k] ([0 < k]), ties going to the even one. *)
Definition round_half_even (m k : Z) : Z :=
  let q := (m / k)%Z in
  match (2 * (m mod k) ?= k)%Z with
  | Lt => q
  | Gt => (q + 1)%Z
  | Eq => if Z.even q then q else (q + 1)%Z
  end.

(** C's [rint] in the default rounding mode: the integral double nearest to
    [x], ties to even, the sign kept.  A double whose exponent is not
    negative is integral already; otherwise its integer part is below
    [2^53] and converts exactly. *)
Definition rint (x : float) : float :=
  match Prim2SF x with
  | S754_finite s m e =>
      if (0 <=? e)%Z then x
      else
        let r := of_uint63 (Uint63.of_Z (round_half_even (Zpos m) (2 ^ (- e)))) in
        if s then - r else r
  | _ => x
  end.

(** [10.0 ** n] *)
Fixpoint power_of_ten (n : nat) : float :=
  match n with
  | O => 1
  | S n' => power_of_ten n' * 10
  end.

(** [round(a, decimals)] where [a] is a NumPy [float64]: NumPy scales by
    [10 ** decimals], rounds to the nearest integer and scales back.  The
    scorer's [attention] is a [float64] whenever it is positive ([np.sqrt]
    returns one); when [max] keeps the literal [0.0], the builtin rounding of
    [0.0] is [0.0], which is also what this function gives. *)
Definition np_round (a : float) (decimals : nat) : float :=
  let f := power_of_ten decimals in
  rint (a * f) / f.

#[local] Close Scope float_scope.

(* ================================================================== *)
(** ** Results and the libraries outside the repository *)

(** A computation that returns or raises. *)
Inductive result (E A : Type) : Type :=
| Ok (a : A)
| Raise (e : E).
Arguments Ok {E A} a.
Arguments Raise {E A} e.

(** The eight read accessors of the estimator, in the order
    [process_frame] calls them. *)
Inductive accessor : Type :=
| pupil_left_coords
| pupil_right_coords
| horizontal_ratio
| vertical_ratio
| is_left
| is_right
| is_center
| is_blinking.

(** What the service imports.  [exn] stands for the exceptions derived from
    [Exception]; [TypeError v] and [AttributeError v] are the ones the
    interpreter raises when [v] has the wrong type for an operation,
    [IndexError] the one for a list index out of range.
    [refresh] mutates the estimator and may raise; accessors only read.
    [loop_time] is the event loop's clock, indexed by the number of earlier
    readings. *)
Class Runtime : Type := {
  exn : Type;
  str_exn : exn -> string;
  TypeError : pyval -> exn;
  AttributeError : pyval -> exn;
  OverflowError : exn;
  IndexError : exn;
  json_loads : string -> result exn pyval;
  bytes : Type;
  b64decode : string -> result exn bytes;
  image : Type;
  Image_open : bytes -> result exn image;
  ndarray : Type;
  cvtColor_RGB2BGR : image -> result exn ndarray;
  GazeTracking : Type;
  refresh : ndarray -> GazeTracking -> option exn * GazeTracking;
  read : accessor -> GazeTracking -> result exn pyval;
  loop_time : nat -> float
}.

(** One call on the decoder or on the estimator, as recorded in the trace
    of the world. *)
Inductive call : Type :=
| Call_b64decode (payload : string)
| Call_Image_open
| Call_cvtColor
| Call_refresh
| Call_read (a : accessor).

(* ================================================================== *)
(** ** The world, and computations over it *)

Section Service.
Context {R : Runtime}.

(** The process-wide state: the one estimator held by the global
    [gaze_processor], the trace of calls made so far, and how often the
    clock has been read. *)
Record world : Type := World {
  gaze : GazeTracking;
  calls : list call;
  ticks : nat
}.

(** A computation that may touch the estimator and may raise. *)
Definition M (A : Type) : Type := world -> result exn A * world.

Definition ret {A} (a : A) : M A := fun w => (Ok a, w).

Definition raise {A} (e : exn) : M A := fun w => (Raise e, w).

Definition bind {A B} (c : M A) (k : A -> M B) : M B :=
  fun w =>
    match c w with
    | (Ok a, w') => k a w'
    | (Raise e, w') => (Raise e, w')
    end.

(** A pure step that may raise. *)
Definition lift {A} (r : result exn A) : M A := fun w => (r, w).

(** Appends one call to the trace. *)
Definition log (c : call) : M unit :=
  fun w => (Ok tt, World (gaze w) (calls w ++ [c]) (ticks w)).

End Service.

Declare Scope py_scope.
Delimit Scope py_scope with py.
Notation "'let!' x ':=' c 'in' k" := (bind c (fun x => k))
  (at level 10, x name, c at level 100, k at level 200) : py_scope.
Notation "'do!' c 'in' k" := (bind c (fun _ => k))
  (at level 10, c at level 100, k at level 200) : py_scope.

Section Scorer.
Context {R : Runtime}.

(** [float(n)] for an integer, as the interpreter converts it before a
    mixed operation: correctly rounded, [OverflowError] beyond the range. *)
Definition float_of_int (n : Z) : result exn float :=
  let x := SF2Prim (binary_normalize prec emax n 0 false) in
  if is_infinity x then Raise OverflowError else Ok x.

(** [v - c] for a float literal [c] *)
Definition py_sub_float (v : pyval) (c : float) : result exn float :=
  match v with
  | PyFloat x => Ok (x - c)%float
  | PyInt n =>
      match float_of_int n with
      | Ok x => Ok (x - c)%float
      | Raise e => Raise e
      end
  | PyBool b => Ok ((if b then 1 else 0) - c)%float
  | _ => Raise (TypeError v)
  end.

(** [GazeProcessor.calculate_attention_score].  The square [x ** 2] is the
    product [x * x]; [np.sqrt] is the correctly rounded square root. *)
Definition calculate_attention_score (gaze_data : gmap string pyval)
  : result exn float :=
  if py_truthy (dict_get gaze_data "is_blinking" (PyBool false)) then
    Ok 0.3%float
  else if py_truthy (dict_get gaze_data "is_center" (PyBool false)) then
    Ok 1.0%float
  else
    let h_ratio := dict_get gaze_data "horizontal_ratio" (PyFloat 0.5) in
    let v_ratio := dict_get gaze_data "vertical_ratio" (PyFloat 0.5) in
    if is_None h_ratio || is_None v_ratio then Ok 0.5%float
    else
      match py_sub_float h_ratio 0.5 with
      | Raise e => Raise e
      | Ok dh =>
          match py_sub_float v_ratio 0.5 with
          | Raise e => Raise e
          | Ok dv =>
              let center_distance := sqrt (dh * dh + dv * dv)%float in
              let attention := py_max 0.0 (1.0 - center_distance * 2)%float in
              Ok (np_round attention 2)
          end
      end.

End Scorer.

(** [score] as the specification words it: the first matching rule wins,
    and rule 4 takes the Euclidean distance [d] of the ratio pair to
    (0.5, 0.5) and returns [max(0.0, 1.0 - 2*d)] rounded to two places. *)
Definition euclidean_distance (x y cx cy : float) : float :=
  sqrt ((x - cx) * (x - cx) + (y - cy) * (y - cy))%float.

Definition score_policy (blinking center : bool) (h v : option float) : float :=
  if blinking then 0.3%float
  else if center then 1.0%float
  else
    match h, v with
    | Some h, Some v =>
        let d := euclidean_distance h v 0.5 0.5 in
        np_round (py_max 0.0 (1.0 - 2 * d)%float) 2
    | _, _ => 0.5%float
    end.



(* ================================================================== *)
(** ** Frame processing *)

(** A dictionary display [{k1: v1, ..., kn: vn}]: the items are inserted
    from left to right. *)
Definition dict_literal (items : list (string * pyval)) : gmap string pyval :=
  fold_left (fun d kv => <[fst kv := snd kv]> d) items ∅.

Section Processor.
Context {R : Runtime}.
#[local] Open Scope py_scope.

(** [asyncio.get_event_loop().time()] *)
Definition now (w : world) : float * world :=
  (loop_time (ticks w), World (gaze w) (calls w) (S (ticks w))).

Definition time : M float := fun w => let (t, w') := now w in (Ok t, w').

(** [self.gaze.refresh(frame)] *)
Definition call_refresh (frame : ndarray) : M unit :=
  fun w =>
    let (failure, g) := refresh frame (gaze w) in
    let w' := World g (calls w ++ [Call_refresh]) (ticks w) in
    match failure with
    | None => (Ok tt, w')
    | Some e => (Raise e, w')
    end.

(** [self.gaze.<accessor>()] *)
Definition call_read (a : accessor) : M pyval :=
  fun w => (read a (gaze w), World (gaze w) (calls w ++ [Call_read a]) (ticks w)).

(** [',' in frame_data] *)
Definition contains_comma (frame_data : pyval) : result exn bool :=
  match frame_data with
  | PyStr s => Ok (str_contains comma s)
  | PyList items => Ok (existsb (fun v => py_eq_str v ",") items)
  | PyDict entries => Ok (bool_decide (is_Some (entries !! ",")))
  | v => Raise (TypeError v)
  end.

(** [frame_data.split(',')[1]] *)
Definition second_field (frame_data : pyval) : result exn pyval :=
  match frame_data with
  | PyStr s =>
      match split comma s with
      | _ :: field :: _ => Ok (PyStr field)
      | _ => Raise IndexError
      end
  | v => Raise (AttributeError v)
  end.

(** The argument of [base64.b64decode] on line 90:
    [frame_data.split(',')[1] if ',' in frame_data else frame_data] *)
Definition b64decode_argument (frame_data : pyval) : result exn pyval :=
  match contains_comma frame_data with
  | Raise e => Raise e
  | Ok true => second_field frame_data
  | Ok false => Ok frame_data
  end.

(** [base64.b64decode(s)]: a string is decoded, anything else (the other
    values reaching this point are lists and dictionaries) is a
    [TypeError]. *)
Definition call_b64decode (s : pyval) : M bytes :=
  match s with
  | PyStr payload => do! log (Call_b64decode payload) in lift (b64decode payload)
  | v => raise (TypeError v)
  end.

(** The [try] block of [GazeProcessor.process_frame] (lines 89-117). *)
Definition process_frame_try (frame_data : pyval) : M (gmap string pyval) :=
  let! payload := lift (b64decode_argument frame_data) in
  let! image_data := call_b64decode payload in
  let! image := (do! log Call_Image_open in lift (Image_open image_data)) in
  let! frame := (do! log Call_cvtColor in lift (cvtColor_RGB2BGR image)) in
  do! call_refresh frame in
  let! timestamp := time in
  let! pupil_left := call_read pupil_left_coords in
  let! pupil_right := call_read pupil_right_coords in
  let! h_ratio := call_read horizontal_ratio in
  let! v_ratio := call_read vertical_ratio in
  let! left := call_read is_left in
  let! right := call_read is_right in
  let! center := call_read is_center in
  let! blinking := call_read is_blinking in
  let gaze_data :=
    dict_literal
      [ ("timestamp", PyFloat timestamp);
        ("pupil_left", pupil_left);
        ("pupil_right", pupil_right);
        ("horizontal_ratio", h_ratio);
        ("vertical_ratio", v_ratio);
        ("is_left", left);
        ("is_right", right);
        ("is_center", center);
        ("is_blinking", blinking);
        ("frame_processed", PyBool true) ] in
  let! attention_score := lift (calculate_attention_score gaze_data) in
  ret (<["attention_score" := PyFloat attention_score]> gaze_data).

(** The dictionary the [except Exception as e] handler returns
    (lines 121-125). *)
Definition error_result (e : exn) (timestamp : float) : gmap string pyval :=
  dict_literal
    [ ("error", PyStr (str_exn e));
      ("frame_processed", PyBool false);
      ("timestamp", PyFloat timestamp) ].

(** [GazeProcessor.process_frame]: it returns on every path. *)
Definition process_frame (frame_data : pyval) (w : world)
  : gmap string pyval * world :=
  match process_frame_try frame_data w with
  | (Ok gaze_data, w') => (gaze_data, w')
  | (Raise e, w') => let (t, w'') := now w' in (error_result e t, w'')
  end.

(* ================================================================== *)
(** ** The session loop *)

(** What arrives on the socket: a text message, or the peer going away
    ([receive_text] raising [WebSocketDisconnect]). *)
Inductive incoming : Type :=
| Recv (data : string)
| Disconnect.

(** What the endpoint does to the socket: [send_text(json.dumps(v))],
    written [Send v] (the text is represented by the value it serialises),
    and [close()]. *)
Inductive outgoing : Type :=
| Send (response : pyval)
| Close.

(** Where the endpoint stands once the messages at hand are consumed:
    still in its loop awaiting [receive_text], left through the
    [WebSocketDisconnect] handler, or left through the general handler,
    which closes the socket. *)
Inductive connection : Type :=
| Receiving
| Disconnected
| Closed.

(** [message.get(key)]: only a dictionary has the method. *)
Definition message_get (message : pyval) (key : string) : result exn pyval :=
  match message with
  | PyDict entries => Ok (dict_get entries key PyNone)
  | v => Raise (AttributeError v)
  end.

(** The field a message is dispatched on, when it has one. *)
Definition message_type (message : pyval) : option pyval :=
  match message with
  | PyDict entries => entries !! "type"
  | _ => None
  end.

(** The body of the [while True] loop after [json.loads]
    (lines 173-188). *)
Definition dispatch (message : pyval) : M (list outgoing) :=
  let! type := lift (message_get message "type") in
  if py_eq_str type "frame" then
    let! frame_data := lift (message_get message "data") in
    if py_truthy frame_data then
      fun w =>
        let (gaze_result, w') := process_frame frame_data w in
        let response :=
          dict_literal [ ("type", PyStr "gaze_data"); ("data", PyDict gaze_result) ] in
        (Ok [Send (PyDict response)], w')
    else ret []
  else
    let! type := lift (message_get message "type") in
    if py_eq_str type "ping" then
      ret [Send (PyDict (dict_literal [ ("type", PyStr "pong") ]))]
    else ret [].

(** One iteration on a received text (lines 170-188). *)
Definition handle_text (data : string) : M (list outgoing) :=
  let! message := lift (json_loads data) in
  dispatch message.

(** [websocket_endpoint] run on the messages that arrive, in order: the
    [try] statement around the [while True] loop.  [websocket.accept()],
    which precedes it, sends no message. *)
Fixpoint websocket_endpoint (inbox : list incoming) (w : world)
  : list outgoing * world * connection :=
  match inbox with
  | [] => ([], w, Receiving)
  | Disconnect :: _ => ([], w, Disconnected)
  | Recv data :: inbox' =>
      match handle_text data w with
      | (Ok sent, w') =>
          let '(sent', w'', c) := websocket_endpoint inbox' w' in
          ((sent ++ sent')%list, w'', c)
      | (Raise e, w') => ([Close], w', Closed)
      end
  end.

End Processor.

(* ================================================================== *)
(** ** A small runtime to run the service on *)

(** The double quote, and the JSON texts of the examples. *)
Definition dq : string := String "034"%char EmptyString.

Definition ping_text : string :=
  "{" ++ dq ++ "type" ++ dq ++ ": " ++ dq ++ "ping" ++ dq ++ "}".

Definition bad_frame_text : string :=
  "{" ++ dq ++ "type" ++ dq ++ ": " ++ dq ++ "frame" ++ dq ++ ", "
      ++ dq ++ "data" ++ dq ++ ": " ++ dq ++ "not base64!" ++ dq ++ "}".

Definition other_text : string :=
  "{" ++ dq ++ "type" ++ dq ++ ": " ++ dq ++ "hello" ++ dq ++ "}".

(** A parser that knows the texts above, the empty array and the empty
    object, and rejects every other text. *)
Definition demo_json_loads (data : string) : result string pyval :=
  if String.eqb data ping_text then
    Ok (PyDict (dict_literal [ ("type", PyStr "ping") ]))
  else if String.eqb data bad_frame_text then
    Ok (PyDict (dict_literal [ ("type", PyStr "frame"); ("data", PyStr "not base64!") ]))
  else if String.eqb data other_text then
    Ok (PyDict (dict_literal [ ("type", PyStr "hello") ]))
  else if String.eqb data "[]" then Ok (PyList [])
  else if String.eqb data "{}" then Ok (PyDict ∅)
  else Raise "Expecting value".

Definition is_base64_char (c : ascii) : bool :=
  let n := nat_of_ascii c in
  ((65 <=? n) && (n <=? 90) || (97 <=? n) && (n <=? 122)
   || (48 <=? n) && (n <=? 57) || (n =? 43) || (n =? 47) || (n =? 61))%nat.

(** Accepts the texts made of whole four-character groups of the base64
    alphabet. *)
Definition demo_b64decode (payload : string) : result string string :=
  if forallb is_base64_char (list_ascii_of_string payload)
     && (String.length payload mod 4 =? 0)%nat
  then Ok payload
  else Raise "Incorrect padding".

(** An estimator that has located both pupils, at the centre, once it has
    seen a frame, and reports nothing before. *)
Definition demo_read (a : accessor) (located : bool) : result string pyval :=
  Ok (if located then
        match a with
        | pupil_left_coords => PyList [PyInt 300; PyInt 240]
        | pupil_right_coords => PyList [PyInt 340; PyInt 240]
        | horizontal_ratio => PyFloat 0.5
        | vertical_ratio => PyFloat 0.5
        | is_left => PyBool false
        | is_right => PyBool false
        | is_center => PyBool true
        | is_blinking => PyBool false
        end
      else PyNone).

Definition demo_runtime : Runtime := {|
  exn := string;
  str_exn := fun e => e;
  TypeError := fun _ => "TypeError";
  AttributeError := fun _ => "AttributeError";
  OverflowError := "OverflowError";
  IndexError := "IndexError";
  json_loads := demo_json_loads;
  bytes := string;
  b64decode := demo_b64decode;
  image := string;
  Image_open := fun b => Ok b;
  ndarray := string;
  cvtColor_RGB2BGR := fun i => Ok i;
  GazeTracking := bool;
  refresh := fun _ _ => (None, true);
  read := demo_read;
  loop_time := fun n => of_uint63 (Uint63.of_Z (Z.of_nat n))
|}.

(** The service at start-up: no frame seen, no call made. *)
Definition demo_world : world := World (R := demo_runtime) false [] 0.


Definition bare_gaze : gmap string pyval :=
  dict_literal [ ("is_blinking", PyBool false) ].

(* ================================================================== *)
(** ** Vocabulary of the statements *)






(** The fields of a gaze result that describe the gaze. *)
Definition gaze_fields : list string :=
  [ "pupil_left"; "pupil_right"; "horizontal_ratio"; "vertical_ratio";
    "is_left"; "is_right"; "is_center"; "is_blinking"; "attention_score" ].

(** The invariant of a gaze result: [frame_processed] is a boolean; when it
    is false, [error] is set and no gaze field is present; when it is true,
    [error] is absent. *)
Definition gaze_result_invariant (r : gmap string pyval) : Prop :=
  (exists b, r !! "frame_processed" = Some (PyBool b))
  /\ (r !! "frame_processed" = Some (PyBool false) ->
      is_Some (r !! "error") /\ Forall (fun k => r !! k = None) gaze_fields)
  /\ (r !! "frame_processed" = Some (PyBool true) -> r !! "error" = None).

(** A computation only appends to the trace of calls. *)
Definition appends_calls `{Runtime} {A : Type} (c : M A) : Prop :=
  forall w, exists later, calls (snd (c w)) = (calls w ++ later)%list.

(* ================================================================== *)
(** ** Start-up: [install_gaze_tracking] *)

(** The machine the service starts on: its disk and the interpreter's
    module search path.  [import_gaze_tracking] is
    [from gaze_tracking import GazeTracking], [path_exists] is
    [os.path.exists("GazeTracking")], [git_clone] is the
    [subprocess.run([...], check=True)] of line 35, which raises when git
    fails, and [sys_path_insert] is
    [sys.path.insert(0, os.path.abspath("GazeTracking"))]. *)
Class Host : Type := {
  host_exn : Type;
  host_str : host_exn -> string;
  is_ImportError : host_exn -> bool;
  machine : Type;
  import_gaze_tracking : machine -> result host_exn unit * machine;
  path_exists : machine -> bool;
  git_clone : machine -> option host_exn * machine;
  sys_path_insert : machine -> machine
}.

(** What start-up does that can be seen from outside. *)
Inductive install_event : Type :=
| Print (line : string)
| Run_git_clone.

(** The inner [try] block (lines 32-43): clone unless the directory is
    there, extend the search path, import again. *)
Definition install_from_clone `{Host} (m : machine)
  : result host_exn bool * machine * list install_event :=
  let '(failure, m1, ran) :=
    if path_exists m then (None, m, [])
    else let (failure, m1) := git_clone m in (failure, m1, [Run_git_clone]) in
  match failure with
  | Some e => (Raise e, m1, ran)
  | None =>
      match import_gaze_tracking (sys_path_insert m1) with
      | (Ok _, m2) => (Ok true, m2, ran)
      | (Raise e, m2) => (Raise e, m2, ran)
      end
  end.

(** [install_gaze_tracking] (lines 25-46).  The outer handler catches
    [ImportError] only; the inner one catches every exception. *)
Definition install_gaze_tracking `{Host} (m : machine)
  : result host_exn bool * machine * list install_event :=
  match import_gaze_tracking m with
  | (Ok _, m1) => (Ok true, m1, [])
  | (Raise e, m1) =>
      if is_ImportError e then
        match install_from_clone m1 with
        | (Ok b, m2, ran) =>
            (Ok b, m2, Print "Installing GazeTracking library..." :: ran)
        | (Raise e', m2, ran) =>
            (Ok false, m2,
             Print "Installing GazeTracking library..." :: ran
             ++ [Print ("Failed to install GazeTracking: " ++ host_str e')])%list
        end
      else (Raise e, m1, [])
  end.



(** How often git was run. *)
Fixpoint clone_runs (events : list install_event) : nat :=
  match events with
  | [] => O
  | Run_git_clone :: rest => S (clone_runs rest)
  | Print _ :: rest => clone_runs rest
  end.

(* ================================================================== *)
(** ** Vocabulary of the further properties *)

(** The two messages the endpoint sends. *)
Definition pong_response : pyval :=
  PyDict (dict_literal [ ("type", PyStr "pong") ]).

Definition gaze_response (gaze_result : gmap string pyval) : pyval :=
  PyDict (dict_literal [ ("type", PyStr "gaze_data"); ("data", PyDict gaze_result) ]).

(** The parts of a run of the endpoint. *)
Definition actions `{Runtime} (run : list outgoing * world * connection)
  : list outgoing := fst (fst run).

Definition final_world `{Runtime} (run : list outgoing * world * connection)
  : world := snd (fst run).

Definition final_state `{Runtime} (run : list outgoing * world * connection)
  : connection := snd run.

Definition is_Send (o : outgoing) : Prop :=
  match o with Send _ => True | Close => False end.

(** What closes the list of actions of a run that ends in state [c]. *)
Definition closing (c : connection) : list outgoing :=
  match c with Closed => [Close] | _ => [] end.

(** An action the client can rely on: [close()], a pong, or a [gaze_data]
    message whose data keeps the invariant of a gaze result. *)
Definition well_formed_action (o : outgoing) : Prop :=
  match o with
  | Close => True
  | Send v =>
      v = pong_response
      \/ exists r, v = gaze_response r /\ gaze_result_invariant r
  end.

(** A parsed message on which the endpoint calls [process_frame]: an
    object of type ["frame"] whose [data] has truth. *)
Definition carries_frame (message : pyval) : bool :=
  match message with
  | PyDict entries =>
      py_eq_str (dict_get entries "type" PyNone) "frame"
      && py_truthy (dict_get entries "data" PyNone)
  | _ => false
  end.

(** An arrival that cannot make the endpoint process a frame. *)
Definition frame_free `{Runtime} (i : incoming) : Prop :=
  match i with
  | Recv data =>
      forall message, json_loads data = Ok message -> carries_frame message = false
  | Disconnect => True
  end.

(** The calls of one fully processed frame. *)
Definition frame_calls (payload : string) : list call :=
  [ Call_b64decode payload; Call_Image_open; Call_cvtColor; Call_refresh;
    Call_read pupil_left_coords; Call_read pupil_right_coords;
    Call_read horizontal_ratio; Call_read vertical_ratio;
    Call_read is_left; Call_read is_right;
    Call_read is_center; Call_read is_blinking ].

(** The record the [try] block builds from the clock reading and the eight
    values read, before the score is added. *)
Definition gaze_record (timestamp : float) (value : accessor -> pyval)
  : gmap string pyval :=
  dict_literal
    [ ("timestamp", PyFloat timestamp);
      ("pupil_left", value pupil_left_coords);
      ("pupil_right", value pupil_right_coords);
      ("horizontal_ratio", value horizontal_ratio);
      ("vertical_ratio", value vertical_ratio);
      ("is_left", value is_left);
      ("is_right", value is_right);
      ("is_center", value is_center);
      ("is_blinking", value is_blinking);
      ("frame_processed", PyBool true) ].

(** [sep.join(fields)] *)
Fixpoint join (sep : ascii) (fields : list string) : string :=
  match fields with
  | [] => EmptyString
  | [field] => field
  | field :: rest => field ++ String sep (join sep rest)
  end.

(** The number of occurrences of [sep] in [s]: [s.count(sep)] *)
Fixpoint count_char (sep : ascii) (s : string) : nat :=
  match s with
  | EmptyString => O
  | String c s' => (if Ascii.eqb c sep then 1 else 0) + count_char sep s'
  end.





(** An estimator that never locates a pupil. *)
Definition unlocated_runtime : Runtime := {|
  exn := string;
  str_exn := fun e => e;
  TypeError := fun _ => "TypeError";
  AttributeError := fun _ => "AttributeError";
  OverflowError := "OverflowError";
  IndexError := "IndexError";
  json_loads := demo_json_loads;
  bytes := string;
  b64decode := demo_b64decode;
  image := string;
  Image_open := fun b => Ok b;
  ndarray := string;
  cvtColor_RGB2BGR := fun i => Ok i;
  GazeTracking := bool;
  refresh := fun _ _ => (None, false);
  read := demo_read;
  loop_time := fun n => of_uint63 (Uint63.of_Z (Z.of_nat n))
|}.


(* ================================================================== *)
(** * Properties *)

(** ** Binary64 facts *)



(** Upper bounds through the rounding of the specification format.  A
    positive finite number [S754_finite false m e] stands for [m * 2^e];
    to stay in the integers, [m * 2^e <= K] is written
    [m * 2^(e + S) <= K * 2^S] for a scale [S] that makes the exponent
    non-negative. *)
Section Binary64Bounds.
#[local] Open Scope Z_scope.





























End Binary64Bounds.

(** ** The attention scorer *)

Section ScorerFacts.
Context {R : Runtime}.


(** C10. When the record has neither ratio key, and [is_blinking] and
    [is_center] are absent or false, the ratios default to 0.5 and the
    score is 1.0; with both keys present and null the score is 0.5. *)
Theorem missing_ratio_keys_score_one (gaze_data : gmap string pyval) :
  gaze_data !! "horizontal_ratio" = None ->
  gaze_data !! "vertical_ratio" = None ->
  gaze_data !! "is_blinking" = None \/ gaze_data !! "is_blinking" = Some (PyBool false) ->
  gaze_data !! "is_center" = None \/ gaze_data !! "is_center" = Some (PyBool false) ->
  calculate_attention_score gaze_data = Ok 1%float
  /\ calculate_attention_score
       (<["vertical_ratio" := PyNone]> (<["horizontal_ratio" := PyNone]> gaze_data))
     = Ok 0.5%float.
Proof.
  intros Hh Hv Hb Hc.
  assert (Eb : py_truthy (dict_get gaze_data "is_blinking" (PyBool false)) = false)
    by (unfold dict_get; destruct Hb as [-> | ->]; reflexivity).
  assert (Ec : py_truthy (dict_get gaze_data "is_center" (PyBool false)) = false)
    by (unfold dict_get; destruct Hc as [-> | ->]; reflexivity).
  split.
  - unfold calculate_attention_score. rewrite Eb, Ec.
    unfold dict_get. rewrite Hh, Hv. vm_compute. reflexivity.
  - set (nulled := <["vertical_ratio" := PyNone]> (<["horizontal_ratio" := PyNone]> gaze_data)).
    assert (Lb : nulled !! "is_blinking" = gaze_data !! "is_blinking")
      by (unfold nulled; now rewrite !lookup_insert_ne).
    assert (Lc : nulled !! "is_center" = gaze_data !! "is_center")
      by (unfold nulled; now rewrite !lookup_insert_ne).
    assert (Lh : nulled !! "horizontal_ratio" = Some PyNone)
      by (unfold nulled; now rewrite lookup_insert_ne, lookup_insert_eq).
    unfold calculate_attention_score, dict_get in *.
    rewrite Lb, Lc, Eb, Ec, Lh. reflexivity.
Qed.



End ScorerFacts.


(** The scorer on a record that has no ratio key. *)
Lemma missing_ratio_keys_score_one_witness :
  calculate_attention_score (R := demo_runtime) bare_gaze = Ok 1%float
  /\ calculate_attention_score (R := demo_runtime)
       (<["vertical_ratio" := PyNone]> (<["horizontal_ratio" := PyNone]> bare_gaze))
     = Ok 0.5%float.
Proof.
  exact (missing_ratio_keys_score_one (R := demo_runtime) bare_gaze
           eq_refl eq_refl (or_intror eq_refl) (or_introl eq_refl)).
Defined.

(** The scorer on the sample inputs of the specification. *)
Example score_blinking_wins :
  score_policy true true (Some 0.5%float) (Some 0.5%float) = 0.3%float.
Proof. reflexivity. Qed.

Example score_center_point :
  score_policy false false (Some 0.5%float) (Some 0.5%float) = 1%float.
Proof. reflexivity. Qed.

Example score_null_ratio :
  score_policy false false None (Some 0.3%float) = 0.5%float.
Proof. reflexivity. Qed.

Example score_far_corner :
  score_policy false false (Some 1%float) (Some 1%float) = 0%float.
Proof. reflexivity. Qed.

Example score_off_center :
  score_policy false false (Some 0.3%float) (Some 0.6%float) = 0.55%float.
Proof. reflexivity. Qed.

Example score_of_nan_ratio :
  score_policy false false (Some nan) (Some 0.5%float) = 0%float.
Proof. reflexivity. Qed.


(** ** Frame processing *)

Section ProcessorFacts.
Context {R : Runtime}.

Lemma bind_Ok {A B : Type} (c : M A) (k : A -> M B) (w w' : world) (b : B) :
  bind c k w = (Ok b, w') ->
  exists a w1, c w = (Ok a, w1) /\ k a w1 = (Ok b, w').
Proof.
  unfold bind. destruct (c w) as [[a | e] w1]; [eauto | discriminate].
Qed.

Ltac bind_inv H :=
  let a := fresh "a" in
  let w := fresh "w" in
  let E := fresh "E" in
  apply bind_Ok in H as (a & w & E & H).

(** *** The trace only grows *)

Lemma appends_ret {A : Type} (a : A) : appends_calls (ret a).
Proof. intro w. exists []. cbn. now rewrite app_nil_r. Qed.

Lemma appends_raise {A : Type} (e : exn) : appends_calls (raise (A := A) e).
Proof. intro w. exists []. cbn. now rewrite app_nil_r. Qed.

Lemma appends_lift {A : Type} (r : result exn A) : appends_calls (lift r).
Proof. intro w. exists []. cbn. now rewrite app_nil_r. Qed.

Lemma appends_log (c : call) : appends_calls (log c).
Proof. intro w. now exists [c]. Qed.

Lemma appends_time : appends_calls time.
Proof. intro w. exists []. cbn. now rewrite app_nil_r. Qed.

Lemma appends_call_refresh (frame : ndarray) : appends_calls (call_refresh frame).
Proof.
  intro w. exists [Call_refresh]. unfold call_refresh.
  destruct (refresh frame (gaze w)) as [[e |] g]; reflexivity.
Qed.

Lemma appends_call_read (a : accessor) : appends_calls (call_read a).
Proof. intro w. now exists [Call_read a]. Qed.

Lemma appends_bind {A B : Type} (c : M A) (k : A -> M B) :
  appends_calls c -> (forall a, appends_calls (k a)) -> appends_calls (bind c k).
Proof.
  intros Hc Hk w. unfold bind.
  destruct (Hc w) as [l1 H1]. destruct (c w) as [[a | e] w1]; cbn [snd] in *.
  - destruct (Hk a w1) as [l2 H2]. exists (l1 ++ l2)%list.
    now rewrite H2, H1, app_assoc.
  - now exists l1.
Qed.

Lemma appends_call_b64decode (s : pyval) : appends_calls (call_b64decode s).
Proof.
  destruct s; cbn [call_b64decode]; try apply appends_raise.
  apply appends_bind; [apply appends_log | intros; apply appends_lift].
Qed.

Create HintDb appends.
#[local] Hint Resolve appends_ret appends_raise appends_lift appends_log
  appends_time appends_call_refresh appends_call_read appends_call_b64decode
  : appends.
#[local] Hint Extern 1 (appends_calls (bind _ _)) =>
  apply appends_bind; [| intros] : appends.

(** What follows [b64decode] in the [try] block. *)
Lemma appends_process_frame_try (frame_data : pyval) :
  appends_calls (process_frame_try frame_data).
Proof. unfold process_frame_try. auto 40 with appends. Qed.

(** *** The argument of [b64decode] *)

Lemma split_without_separator (s : string) :
  str_contains comma s = false -> split comma s = [s].
Proof.
  induction s as [| c s IH]; cbn; [reflexivity |].
  destruct (Ascii.eqb c comma); [discriminate |].
  intro H. now rewrite IH.
Qed.

Lemma split_at_first_separator (pre rest : string) :
  str_contains comma pre = false ->
  split comma (pre ++ String comma rest) = pre :: split comma rest.
Proof.
  induction pre as [| c pre IH].
  - reflexivity.
  - change (String c pre ++ String comma rest)
      with (String c (pre ++ String comma rest)).
    cbn [split str_contains].
    destruct (Ascii.eqb c comma); [discriminate |].
    intro H. now rewrite IH.
Qed.

Lemma str_contains_app (pre rest : string) :
  str_contains comma (pre ++ String comma rest) = true.
Proof.
  induction pre as [| c pre IH].
  - reflexivity.
  - change (String c pre ++ String comma rest)
      with (String c (pre ++ String comma rest)).
    cbn [str_contains]. now destruct (Ascii.eqb c comma).
Qed.

Lemma append_empty_r (s : string) : s ++ "" = s.
Proof.
  induction s as [| c s IH]; [reflexivity |].
  change (String c s ++ "") with (String c (s ++ "")). now rewrite IH.
Qed.

(** The first field of what follows the first comma: [mid] when the rest
    is [mid] alone or [mid] and then a comma. *)
Lemma split_second_field (mid post : string) :
  str_contains comma mid = false ->
  post = "" \/ (exists rest, post = String comma rest) ->
  exists fields, split comma (mid ++ post) = mid :: fields.
Proof.
  intros Hmid [-> | [rest ->]].
  - exists []. rewrite append_empty_r.
    now apply split_without_separator.
  - exists (split comma rest). now apply split_at_first_separator.
Qed.

Lemma process_frame_calls (frame_data : pyval) (w : world) :
  calls (snd (process_frame frame_data w))
  = calls (snd (process_frame_try frame_data w)).
Proof.
  unfold process_frame.
  now destruct (process_frame_try frame_data w) as [[gaze_data | e] w'].
Qed.

Lemma appends_after {A B : Type} (c : M A) (k : A -> M B) (w : world) :
  (forall a, appends_calls (k a)) ->
  exists later, calls (snd (bind c k w)) = (calls (snd (c w)) ++ later)%list.
Proof.
  intro Hk. unfold bind. destruct (c w) as [[a | e] w1]; cbn [snd].
  - apply Hk.
  - exists []. now rewrite app_nil_r.
Qed.

Lemma call_b64decode_calls (payload : string) (w : world) :
  calls (snd (call_b64decode (PyStr payload) w))
  = (calls w ++ [Call_b64decode payload])%list.
Proof.
  unfold call_b64decode, bind, log, lift.
  now destruct (b64decode payload).
Qed.

(** C2, as the code has it.  A payload without a comma is handed to
    [b64decode] unchanged.  A payload with a comma is cut at its first
    comma and also at the next one: what [b64decode] receives is the text
    between the first comma and the second (the end of the payload when
    there is no second comma), and [process_frame] calls [b64decode] on
    exactly that text. *)
Theorem b64decode_receives_second_field :
  (forall s : string,
      str_contains comma s = false ->
      b64decode_argument (PyStr s) = Ok (PyStr s))
  /\ (forall pre mid post : string,
        str_contains comma pre = false ->
        str_contains comma mid = false ->
        post = "" \/ (exists rest, post = String comma rest) ->
        b64decode_argument (PyStr (pre ++ String comma (mid ++ post))) = Ok (PyStr mid))
  /\ (forall (s payload : string) (w : world),
        b64decode_argument (PyStr s) = Ok (PyStr payload) ->
        exists later,
          calls (snd (process_frame (PyStr s) w))
          = (calls w ++ Call_b64decode payload :: later)%list).
Proof.
  split; [| split].
  - intros s Hs. unfold b64decode_argument. cbn. now rewrite Hs.
  - intros pre mid post Hpre Hmid Hpost.
    unfold b64decode_argument. cbn [contains_comma second_field].
    rewrite str_contains_app, split_at_first_separator by exact Hpre.
    destruct (split_second_field mid post Hmid Hpost) as [fields ->].
    reflexivity.
  - intros s payload w Harg.
    rewrite process_frame_calls. unfold process_frame_try. rewrite Harg.
    change (bind (lift (Ok (PyStr payload))) ?k w) with (k (PyStr payload) w).
    cbn beta.
    match goal with
    | |- context [bind (call_b64decode _) ?k] =>
        destruct (appends_after (call_b64decode (PyStr payload)) k w)
          as [later ->]
    end.
    { intro a. auto 40 with appends. }
    exists later. rewrite call_b64decode_calls. now rewrite <- app_assoc.
Qed.

(** *** The shape of a gaze result *)

(** When the [try] block returns, it returns the ten-entry record with the
    score added. *)
Lemma process_frame_try_Ok (frame_data : pyval) (w w' : world)
  (gaze_data : gmap string pyval) :
  process_frame_try frame_data w = (Ok gaze_data, w') ->
  exists timestamp pupil_left pupil_right h_ratio v_ratio left right
         center blinking attention_score,
    gaze_data =
      <["attention_score" := PyFloat attention_score]>
        (dict_literal
           [ ("timestamp", PyFloat timestamp);
             ("pupil_left", pupil_left);
             ("pupil_right", pupil_right);
             ("horizontal_ratio", h_ratio);
             ("vertical_ratio", v_ratio);
             ("is_left", left);
             ("is_right", right);
             ("is_center", center);
             ("is_blinking", blinking);
             ("frame_processed", PyBool true) ]).
Proof.
  unfold process_frame_try. intro H.
  do 15 bind_inv H.
  injection H as <- _. eauto 12.
Qed.

(** *** The calls one frame costs *)

Lemma lift_Ok {A : Type} (r : result exn A) (a : A) (w w' : world) :
  lift r w = (Ok a, w') -> r = Ok a /\ w' = w.
Proof. unfold lift. intro H. now injection H as -> ->. Qed.

Lemma call_b64decode_Ok (s : pyval) (image_data : bytes) (w w' : world) :
  call_b64decode s w = (Ok image_data, w') ->
  exists payload,
    s = PyStr payload /\ calls w' = (calls w ++ [Call_b64decode payload])%list.
Proof.
  destruct s as [| b | n | x | payload | items | entries];
    cbn [call_b64decode]; try discriminate.
  unfold bind, log, lift. intro H. exists payload.
  split; [reflexivity |]. now injection H as _ <-.
Qed.

Lemma logged_Ok {A : Type} (c : call) (r : result exn A) (a : A) (w w' : world) :
  bind (log c) (fun _ => lift r) w = (Ok a, w') ->
  calls w' = (calls w ++ [c])%list.
Proof. unfold bind, log, lift. intro H. now injection H as _ <-. Qed.

Lemma call_refresh_Ok (frame : ndarray) (u : unit) (w w' : world) :
  call_refresh frame w = (Ok u, w') ->
  calls w' = (calls w ++ [Call_refresh])%list.
Proof.
  unfold call_refresh. destruct (refresh frame (gaze w)) as [[e |] g];
    [discriminate |]. intro H. now injection H as _ <-.
Qed.

Lemma call_read_Ok (a : accessor) (v : pyval) (w w' : world) :
  call_read a w = (Ok v, w') -> calls w' = (calls w ++ [Call_read a])%list.
Proof. unfold call_read. intro H. now injection H as _ <-. Qed.

Lemma time_Ok (t : float) (w w' : world) :
  time w = (Ok t, w') -> calls w' = calls w.
Proof. unfold time, now. intro H. now injection H as _ <-. Qed.

(** X1. When the [try] block returns, one frame has cost exactly these calls,
    in this order: the three decoding steps, [refresh], and then each of
    the eight accessors once; none is skipped or repeated. *)
Lemma process_frame_try_Ok_calls (frame_data : pyval) (w w' : world)
  (gaze_data : gmap string pyval) :
  process_frame_try frame_data w = (Ok gaze_data, w') ->
  exists payload,
    b64decode_argument frame_data = Ok (PyStr payload)
    /\ calls w' =
         (calls w ++
            [ Call_b64decode payload; Call_Image_open; Call_cvtColor;
              Call_refresh;
              Call_read pupil_left_coords; Call_read pupil_right_coords;
              Call_read horizontal_ratio; Call_read vertical_ratio;
              Call_read is_left; Call_read is_right;
              Call_read is_center; Call_read is_blinking ])%list.
Proof.
  unfold process_frame_try. intro H. do 15 bind_inv H.
  injection H as _ <-.
  repeat match goal with
         | E : lift _ _ = (Ok _, _) |- _ => apply lift_Ok in E as [? ->]
         | E : call_b64decode _ _ = (Ok _, _) |- _ =>
             apply call_b64decode_Ok in E as (payload & -> & ?)
         | E : bind (log _) _ _ = (Ok _, _) |- _ => apply logged_Ok in E
         | E : call_refresh _ _ = (Ok _, _) |- _ => apply call_refresh_Ok in E
         | E : call_read _ _ = (Ok _, _) |- _ => apply call_read_Ok in E
         | E : time _ = (Ok _, _) |- _ => apply time_Ok in E
         end.
  exists payload. split; [assumption |].
  repeat match goal with
         | E : calls _ = _ |- _ => rewrite E; clear E
         end.
  rewrite <- !app_assoc. reflexivity.
Qed.

(** C3. Every result of [process_frame] satisfies the invariant of a gaze
    result: [frame_processed] is a boolean; if it is false then [error] is
    set and the pupil coordinates, ratios, direction and blink flags and
    [attention_score] are all absent; if it is true then [error] is
    absent. *)
Theorem process_frame_invariant (frame_data : pyval) (w : world) :
  gaze_result_invariant (fst (process_frame frame_data w)).
Proof.
  unfold process_frame.
  destruct (process_frame_try frame_data w) as [[gaze_data | e] w'] eqn:E.
  - apply process_frame_try_Ok in E
      as (t & pl & pr & h & v & l & r & c & b & a & ->).
    cbn [fst]. repeat split.
    + now exists true.
    + discriminate.
    + discriminate.
  - cbn [fst now]. repeat split.
    + now exists false.
    + now eexists.
    + unfold gaze_fields. repeat constructor.
    + discriminate.
Qed.

End ProcessorFacts.

(** A data URI is cut at its only comma. *)
Lemma b64decode_receives_second_field_witness :
  b64decode_argument (R := demo_runtime) (PyStr "data:image/png;base64,QUJD")
  = Ok (PyStr "QUJD").
Proof.
  exact (proj1 (proj2 (b64decode_receives_second_field (R := demo_runtime)))
           "data:image/png;base64" "QUJD" "" eq_refl eq_refl (or_introl eq_refl)).
Defined.

(** With two commas, the text after the second comma is dropped as well:
    the argument is not the whole remainder after the first comma. *)
Lemma whole_remainder_counterexample :
  b64decode_argument (R := demo_runtime) (PyStr "a,b,c") = Ok (PyStr "b")
  /\ b64decode_argument (R := demo_runtime) (PyStr "a,b,c") <> Ok (PyStr "b,c").
Proof. split; [reflexivity | discriminate]. Qed.

(** One well-formed frame on the fresh service costs the twelve calls. *)
Lemma process_frame_try_Ok_calls_witness :
  exists payload,
    b64decode_argument (R := demo_runtime) (PyStr "data:image/png;base64,QUJD")
    = Ok (PyStr payload)
    /\ calls (snd (process_frame_try (R := demo_runtime)
                     (PyStr "data:image/png;base64,QUJD") demo_world)) =
         (calls demo_world ++
            [ Call_b64decode payload; Call_Image_open; Call_cvtColor;
              Call_refresh;
              Call_read pupil_left_coords; Call_read pupil_right_coords;
              Call_read horizontal_ratio; Call_read vertical_ratio;
              Call_read is_left; Call_read is_right;
              Call_read is_center; Call_read is_blinking ])%list.
Proof.
  set (run := process_frame_try (R := demo_runtime)
                (PyStr "data:image/png;base64,QUJD") demo_world).
  apply (process_frame_try_Ok_calls (R := demo_runtime)
           (PyStr "data:image/png;base64,QUJD") demo_world (snd run)
           (match fst run with Ok gaze_data => gaze_data | Raise _ => ∅ end)).
  reflexivity.
Defined.

(** ** The session loop *)

Section EndpointFacts.
Context {R : Runtime}.

(** The loop on a message that was handled without an exception: what
    was sent, then the loop on the rest. *)
Lemma websocket_endpoint_handled (data : string) (inbox : list incoming)
  (w w' : world) (sent : list outgoing) :
  handle_text data w = (Ok sent, w') ->
  websocket_endpoint (Recv data :: inbox) w =
    (let '(sent', w'', c) := websocket_endpoint inbox w' in
     ((sent ++ sent')%list, w'', c)).
Proof. intro H. cbn [websocket_endpoint]. now rewrite H. Qed.

(** A frame message with data is answered with the result of
    [process_frame]. *)
Lemma handle_text_frame (data : string) (entries : gmap string pyval)
  (frame_data : pyval) (w : world) :
  json_loads data = Ok (PyDict entries) ->
  entries !! "type" = Some (PyStr "frame") ->
  entries !! "data" = Some frame_data ->
  py_truthy frame_data = true ->
  handle_text data w =
    (Ok [Send (PyDict (dict_literal
                         [ ("type", PyStr "gaze_data");
                           ("data", PyDict (fst (process_frame frame_data w))) ]))],
     snd (process_frame frame_data w)).
Proof.
  intros Hjson Htype Hdata Htruthy.
  unfold handle_text, dispatch, bind, lift, message_get, dict_get.
  rewrite Hjson, Htype. cbn [py_eq_str].
  change (("frame" =? "frame")%string) with true. cbv iota.
  rewrite Hdata, Htruthy.
  now destruct (process_frame frame_data w).
Qed.

(** C4. A frame message whose processing raises [e] is answered: the
    exception is caught, the client is sent a [gaze_data] message whose
    data has [frame_processed] false, [error] the message of [e], and a
    timestamp; then the loop goes on with the messages that follow. *)
Theorem frame_exception_is_reported (data : string) (entries : gmap string pyval)
  (frame_data : pyval) (e : exn) (w w1 : world) (inbox : list incoming) :
  json_loads data = Ok (PyDict entries) ->
  entries !! "type" = Some (PyStr "frame") ->
  entries !! "data" = Some frame_data ->
  py_truthy frame_data = true ->
  process_frame_try frame_data w = (Raise e, w1) ->
  websocket_endpoint (Recv data :: inbox) w =
    (let '(sent, w2, c) := websocket_endpoint inbox (snd (now w1)) in
     (Send (PyDict (dict_literal
                      [ ("type", PyStr "gaze_data");
                        ("data",
                         PyDict (dict_literal
                                   [ ("error", PyStr (str_exn e));
                                     ("frame_processed", PyBool false);
                                     ("timestamp", PyFloat (fst (now w1))) ])) ]))
        :: sent,
      w2, c)).
Proof.
  intros Hjson Htype Hdata Htruthy Hraise.
  rewrite (websocket_endpoint_handled data inbox w _ _
             (handle_text_frame data entries frame_data w Hjson Htype Hdata Htruthy)).
  unfold process_frame. rewrite Hraise. cbn [now fst snd].
  reflexivity.
Qed.

(** A payload that [b64decode] rejects makes the [try] block raise. *)
Lemma invalid_base64_raises (s payload : string) (e : exn) (w : world) :
  b64decode_argument (PyStr s) = Ok (PyStr payload) ->
  b64decode payload = Raise e ->
  process_frame_try (PyStr s) w =
    (Raise e, World (gaze w) (calls w ++ [Call_b64decode payload]) (ticks w)).
Proof.
  intros Harg Hb64. unfold process_frame_try, bind, lift, call_b64decode, log.
  now rewrite Harg, Hb64.
Qed.

(** C5. A received text that is not valid JSON ends the loop: nothing is
    sent to report the failure, the socket is closed, the messages that
    follow are not read, and neither decoder nor estimator is called. *)
Theorem invalid_json_closes_connection (data : string) (e : exn) (w : world)
  (inbox : list incoming) :
  json_loads data = Raise e ->
  websocket_endpoint (Recv data :: inbox) w = ([Close], w, Closed).
Proof.
  intro Hjson. cbn [websocket_endpoint].
  unfold handle_text, bind, lift. now rewrite Hjson.
Qed.

(** C6. A message of type ["ping"] is answered with exactly
    [{"type": "pong"}], the world is left as it was (no call is added to
    the trace, the estimator is untouched), and the loop goes on. *)
Theorem ping_is_answered_with_pong (data : string) (entries : gmap string pyval)
  (w : world) (inbox : list incoming) :
  json_loads data = Ok (PyDict entries) ->
  entries !! "type" = Some (PyStr "ping") ->
  handle_text data w = (Ok [Send (PyDict {[ "type" := PyStr "pong" ]})], w)
  /\ websocket_endpoint (Recv data :: inbox) w =
       (let '(sent, w', c) := websocket_endpoint inbox w in
        (Send (PyDict {[ "type" := PyStr "pong" ]}) :: sent, w', c)).
Proof.
  intros Hjson Htype.
  assert (H : handle_text data w
              = (Ok [Send (PyDict {[ "type" := PyStr "pong" ]})], w)).
  { unfold handle_text, dispatch, bind, lift, message_get, dict_get.
    now rewrite Hjson, Htype. }
  split; [exact H |].
  now rewrite (websocket_endpoint_handled data inbox w _ _ H).
Qed.

(** C7, for messages that are JSON objects.  An object whose [type] is
    neither ["frame"] nor ["ping"] (or is missing), and a ["frame"] object
    whose [data] is missing or has no truth (null, the empty string), gets
    no response: nothing is sent, the world is left as it was, and the loop
    goes on with the next message. *)
Theorem other_object_is_ignored (data : string) (entries : gmap string pyval)
  (w : world) (inbox : list incoming) :
  json_loads data = Ok (PyDict entries) ->
  (entries !! "type" <> Some (PyStr "frame")
   /\ entries !! "type" <> Some (PyStr "ping"))
  \/ (entries !! "type" = Some (PyStr "frame")
      /\ py_truthy (dict_get entries "data" PyNone) = false) ->
  handle_text data w = (Ok [], w)
  /\ websocket_endpoint (Recv data :: inbox) w = websocket_endpoint inbox w.
Proof.
  intros Hjson Hcase.
  assert (H : handle_text data w = (Ok [], w)).
  { unfold handle_text, dispatch, bind, lift, message_get.
    rewrite Hjson. destruct Hcase as [[Hf Hp] | [Hf Hd]].
    - assert (Ef : py_eq_str (dict_get entries "type" PyNone) "frame" = false).
      { unfold dict_get. destruct (entries !! "type") as [[] |]; cbn; trivial.
        apply String.eqb_neq. congruence. }
      assert (Ep : py_eq_str (dict_get entries "type" PyNone) "ping" = false).
      { unfold dict_get. destruct (entries !! "type") as [[] |]; cbn; trivial.
        apply String.eqb_neq. congruence. }
      now rewrite Ef, Ep.
    - unfold dict_get at 1. rewrite Hf. cbn [py_eq_str].
      change (("frame" =? "frame")%string) with true. cbv iota.
      now rewrite Hd. }
  split; [exact H |].
  rewrite (websocket_endpoint_handled data inbox w _ _ H).
  now destruct (websocket_endpoint inbox w) as [[sent' w''] c].
Qed.

End EndpointFacts.

(** *** The loop on the small runtime *)

(** A frame that is not base64, then a ping: the error is reported and the
    ping is still answered. *)
Lemma frame_exception_is_reported_witness :
  websocket_endpoint (R := demo_runtime)
    [Recv bad_frame_text; Recv ping_text] demo_world
  = ([ Send (PyDict (dict_literal
                       [ ("type", PyStr "gaze_data");
                         ("data",
                          PyDict (dict_literal
                                    [ ("error", PyStr "Incorrect padding");
                                      ("frame_processed", PyBool false);
                                      ("timestamp", PyFloat 0) ])) ]));
       Send (PyDict {[ "type" := PyStr "pong" ]}) ],
     World (R := demo_runtime) false [Call_b64decode "not base64!"] 1,
     Receiving).
Proof.
  exact (frame_exception_is_reported (R := demo_runtime)
           bad_frame_text
           (dict_literal [ ("type", PyStr "frame"); ("data", PyStr "not base64!") ])
           (PyStr "not base64!") "Incorrect padding" demo_world
           (World (R := demo_runtime) false [Call_b64decode "not base64!"] 0)
           [Recv ping_text]
           eq_refl eq_refl eq_refl eq_refl eq_refl).
Defined.

(** A text that does not parse, then a ping that is never read. *)
Lemma invalid_json_closes_connection_witness :
  websocket_endpoint (R := demo_runtime) [Recv "oops"; Recv ping_text] demo_world
  = ([Close], demo_world, Closed).
Proof.
  exact (invalid_json_closes_connection (R := demo_runtime)
           "oops" "Expecting value" demo_world [Recv ping_text] eq_refl).
Defined.

(** A ping on the fresh service. *)
Lemma ping_is_answered_with_pong_witness :
  handle_text (R := demo_runtime) ping_text demo_world
  = (Ok [Send (PyDict {[ "type" := PyStr "pong" ]})], demo_world)
  /\ websocket_endpoint (R := demo_runtime) [Recv ping_text] demo_world
     = ([Send (PyDict {[ "type" := PyStr "pong" ]})], demo_world, Receiving).
Proof.
  exact (ping_is_answered_with_pong (R := demo_runtime)
           ping_text (dict_literal [ ("type", PyStr "ping") ]) demo_world []
           eq_refl eq_refl).
Defined.

(** An object of an unknown type, then a ping. *)
Lemma other_object_is_ignored_witness :
  handle_text (R := demo_runtime) other_text demo_world = (Ok [], demo_world)
  /\ websocket_endpoint (R := demo_runtime) [Recv other_text; Recv ping_text] demo_world
     = websocket_endpoint (R := demo_runtime) [Recv ping_text] demo_world.
Proof.
  apply (other_object_is_ignored (R := demo_runtime)
           other_text (dict_literal [ ("type", PyStr "hello") ]) demo_world
           [Recv ping_text] eq_refl).
  left. split; discriminate.
Defined.

(** The JSON text [[]] parses, it has no [type] field, and yet the
    connection does not stay open: [message.get] raises and the general
    handler closes the socket. *)
Lemma non_object_message_counterexample :
  @json_loads demo_runtime "[]" = Ok (PyList [])
  /\ message_type (PyList []) = None
  /\ websocket_endpoint (R := demo_runtime) [Recv "[]"] demo_world
     = ([Close], demo_world, Closed).
Proof. repeat split. Qed.

(* ================================================================== *)
(** * Further properties *)

(** ** One frame *)

Section FrameFacts.
Context {R : Runtime}.





(** The [try] block when decoding, [refresh] and the eight reads all
    succeed: the clock is read once, the twelve calls are made, and the
    outcome is the scorer's. *)
Lemma process_frame_try_run (frame_data : pyval) (payload : string)
  (image_data : bytes) (img : image) (frame : ndarray) (g : GazeTracking)
  (value : accessor -> pyval) (w : world) :
  b64decode_argument frame_data = Ok (PyStr payload) ->
  b64decode payload = Ok image_data ->
  Image_open image_data = Ok img ->
  cvtColor_RGB2BGR img = Ok frame ->
  refresh frame (gaze w) = (None, g) ->
  (forall a, read a g = Ok (value a)) ->
  process_frame_try frame_data w =
    (match calculate_attention_score (gaze_record (loop_time (ticks w)) value) with
     | Ok score =>
         Ok (<["attention_score" := PyFloat score]>
               (gaze_record (loop_time (ticks w)) value))
     | Raise e => Raise e
     end,
     World g (calls w ++ frame_calls payload) (S (ticks w))).
Proof.
  intros Harg Hb64 Hopen Hcvt Hrefresh Hread.
  unfold process_frame_try, call_b64decode, call_refresh, call_read, time,
    now, ret, log, lift, bind.
  rewrite Harg, Hb64. cbn [gaze calls ticks]. rewrite Hopen. cbn [gaze calls ticks].
  rewrite Hcvt. cbn [gaze calls ticks]. rewrite Hrefresh. cbn [gaze calls ticks].
  rewrite !Hread. fold (gaze_record (loop_time (ticks w)) value).
  unfold frame_calls.
  destruct (calculate_attention_score _); rewrite <- !app_assoc; reflexivity.
Qed.

(** X3. Whatever the frame and however it fails, the calls one
    [process_frame] makes are an initial segment of the twelve calls of a
    processed frame, so no accessor is read before [refresh] has run for
    this frame; and when [refresh] was not reached (the payload did not
    decode), the estimator is left exactly as it was. *)
Theorem estimator_guarded_by_refresh (frame_data : pyval) (w : world) :
  exists payload later,
    calls (snd (process_frame frame_data w)) = (calls w ++ later)%list
    /\ later `prefix_of` frame_calls payload
    /\ (Call_refresh ∉ later ->
        gaze (snd (process_frame frame_data w)) = gaze w).
Proof.
  unfold process_frame, process_frame_try, call_b64decode, call_refresh,
    call_read, time, now, ret, raise, log, lift, bind.
  destruct (b64decode_argument frame_data) as [[| b | n | x | payload | l | d] | e];
    cbn [gaze calls ticks snd];
    try (exists "", []; rewrite app_nil_r;
         split; [reflexivity | split; [apply prefix_nil | reflexivity]]).
  exists payload.
  repeat match goal with
         | |- context [match ?x with _ => _ end] =>
             lazymatch x with
             | context [match _ with _ => _ end] => fail
             | _ => destruct x; cbn [gaze calls ticks snd fst]
             end
         end;
    (eexists; split; [rewrite <- ?app_assoc; reflexivity |];
     split; [now eexists |]);
    first [ reflexivity
          | intro Hnot; exfalso; apply Hnot; set_solver ].
Qed.

(** X4. A frame that decodes and on which the estimator finds nothing to
    read (neither flag has truth, and a ratio is null, as when no pupil
    is located) is returned as processed, with the values read and an
    [attention_score] of 0.5. *)
Theorem unlocated_gaze_scores_half (frame_data : pyval) (payload : string)
  (image_data : bytes) (img : image) (frame : ndarray) (g : GazeTracking)
  (value : accessor -> pyval) (w : world) :
  b64decode_argument frame_data = Ok (PyStr payload) ->
  b64decode payload = Ok image_data ->
  Image_open image_data = Ok img ->
  cvtColor_RGB2BGR img = Ok frame ->
  refresh frame (gaze w) = (None, g) ->
  (forall a, read a g = Ok (value a)) ->
  py_truthy (value is_blinking) = false ->
  py_truthy (value is_center) = false ->
  value horizontal_ratio = PyNone \/ value vertical_ratio = PyNone ->
  process_frame frame_data w =
    (<["attention_score" := PyFloat 0.5]> (gaze_record (loop_time (ticks w)) value),
     World g (calls w ++ frame_calls payload) (S (ticks w))).
Proof.
  intros Harg Hb64 Hopen Hcvt Hrefresh Hread Hblink Hcenter Hnull.
  unfold process_frame.
  rewrite (process_frame_try_run _ _ _ _ _ _ _ _ Harg Hb64 Hopen Hcvt Hrefresh Hread).
  assert (Hs : calculate_attention_score (gaze_record (loop_time (ticks w)) value)
               = Ok 0.5%float).
  { unfold calculate_attention_score.
    change (dict_get (gaze_record _ value) "is_blinking" (PyBool false))
      with (value is_blinking).
    change (dict_get (gaze_record _ value) "is_center" (PyBool false))
      with (value is_center).
    change (dict_get (gaze_record _ value) "horizontal_ratio" (PyFloat 0.5))
      with (value horizontal_ratio).
    change (dict_get (gaze_record _ value) "vertical_ratio" (PyFloat 0.5))
      with (value vertical_ratio).
    rewrite Hblink, Hcenter.
    destruct Hnull as [-> | ->]; [reflexivity |].
    now rewrite orb_true_r. }
  now rewrite Hs.
Qed.

End FrameFacts.

(** ** The scorer *)

Section ScorerFurther.
Context {R : Runtime}.









End ScorerFurther.

(** ** The session *)

Section SessionFacts.
Context {R : Runtime}.

(** One iteration of the loop, by cases. *)
Lemma handle_text_cases (data : string) (w : world) :
  handle_text data w =
    match json_loads data with
    | Raise e => (Raise e, w)
    | Ok (PyDict entries) =>
        if py_eq_str (dict_get entries "type" PyNone) "frame" then
          if py_truthy (dict_get entries "data" PyNone) then
            (Ok [Send (gaze_response
                         (fst (process_frame (dict_get entries "data" PyNone) w)))],
             snd (process_frame (dict_get entries "data" PyNone) w))
          else (Ok [], w)
        else if py_eq_str (dict_get entries "type" PyNone) "ping" then
          (Ok [Send pong_response], w)
        else (Ok [], w)
    | Ok v => (Raise (AttributeError v), w)
    end.
Proof.
  unfold handle_text, dispatch, message_get, lift, bind, ret.
  destruct (json_loads data) as [[| b | n | x | s | l | entries] | e];
    try reflexivity.
  destruct (py_eq_str (dict_get entries "type" PyNone) "frame").
  - destruct (py_truthy (dict_get entries "data" PyNone)); [| reflexivity].
    now destruct (process_frame (dict_get entries "data" PyNone) w).
  - now destruct (py_eq_str (dict_get entries "type" PyNone) "ping").
Qed.

(** A handled message is answered by at most one send. *)
Lemma handle_text_Ok (data : string) (w w' : world) (sent : list outgoing) :
  handle_text data w = (Ok sent, w') ->
  (sent = [] /\ w' = w)
  \/ (sent = [Send pong_response] /\ w' = w)
  \/ (exists frame_data,
        sent = [Send (gaze_response (fst (process_frame frame_data w)))]
        /\ w' = snd (process_frame frame_data w)).
Proof.
  rewrite handle_text_cases.
  destruct (json_loads data) as [[| b | n | x | s | l | entries] | e];
    try discriminate.
  destruct (py_eq_str (dict_get entries "type" PyNone) "frame").
  - destruct (py_truthy (dict_get entries "data" PyNone)); intros [= <- <-]; eauto.
  - destruct (py_eq_str (dict_get entries "type" PyNone) "ping");
      intros [= <- <-]; auto.
Qed.

(** A message that raises leaves the world as it was. *)
Lemma handle_text_Raise (data : string) (w w' : world) (e : exn) :
  handle_text data w = (Raise e, w') -> w' = w.
Proof.
  rewrite handle_text_cases.
  destruct (json_loads data) as [[| b | n | x | s | l | entries] | e'];
    try (now intros [= _ <-]).
  destruct (py_eq_str (dict_get entries "type" PyNone) "frame").
  - destruct (py_truthy (dict_get entries "data" PyNone)); discriminate.
  - destruct (py_eq_str (dict_get entries "type" PyNone) "ping"); discriminate.
Qed.

(** The invariant of a gaze result, for the shared use of the session
    facts. *)
Lemma process_frame_keeps_invariant (frame_data : pyval) (w : world) :
  gaze_result_invariant (fst (process_frame frame_data w)).
Proof.
  unfold process_frame.
  destruct (process_frame_try frame_data w) as [[gaze_data | e] w'] eqn:E.
  - apply process_frame_try_Ok in E
      as (t & pl & pr & h & v & l & r & c & b & a & ->).
    cbn [fst]. repeat split; [now exists true | discriminate | discriminate].
  - cbn [fst now]. repeat split;
      [now exists false | now eexists | unfold gaze_fields; repeat constructor
      | discriminate].
Qed.

(** X8. In every run of the endpoint, each received message is answered by
    at most one action; [close()] is called at most once, as the very last
    action, and exactly in the runs that end through the general handler:
    nothing is ever sent after the socket is closed, and a peer that
    disconnects is never sent a close. *)
Theorem close_is_last_and_only_once (inbox : list incoming) (w : world) :
  exists sends,
    actions (websocket_endpoint inbox w)
    = (sends ++ closing (final_state (websocket_endpoint inbox w)))%list
    /\ Forall is_Send sends
    /\ length (actions (websocket_endpoint inbox w)) <= length inbox.
Proof.
  revert w. induction inbox as [| [data |] inbox IH]; intro w.
  - exists []. cbn. repeat split; [constructor | lia].
  - cbn [websocket_endpoint].
    destruct (handle_text data w) as [[sent | e] w'] eqn:E.
    + destruct (IH w') as (sends & Hact & Hsends & Hlen).
      unfold actions, final_state in *.
      destruct (websocket_endpoint inbox w') as [[sent' w''] c]. cbn [fst snd] in *.
      exists (sent ++ sends)%list. subst sent'.
      split; [now rewrite app_assoc |].
      apply handle_text_Ok in E
        as [[-> _] | [[-> _] | (frame_data & -> & _)]]; cbn [app length];
        (split; [repeat constructor; assumption | lia]).
    + exists []. cbn. repeat split; [constructor | lia].
  - exists []. cbn. repeat split; [constructor | lia].
Qed.

(** X9. Everything the endpoint sends is a message the client can rely on:
    a pong, or a [gaze_data] message whose data keeps the invariant of a
    gaze result (an error record, or a processed record without an error
    field). *)
Theorem every_action_is_well_formed (inbox : list incoming) (w : world) :
  Forall well_formed_action (actions (websocket_endpoint inbox w)).
Proof.
  revert w. induction inbox as [| [data |] inbox IH]; intro w;
    [constructor | | constructor].
  cbn [websocket_endpoint].
  destruct (handle_text data w) as [[sent | e] w'] eqn:E.
  - specialize (IH w'). unfold actions in *.
    destruct (websocket_endpoint inbox w') as [[sent' w''] c]. cbn [fst] in *.
    apply Forall_app. split; [| exact IH].
    apply handle_text_Ok in E
      as [[-> _] | [[-> _] | (frame_data & -> & _)]].
    + constructor.
    + constructor; [now left | constructor].
    + constructor; [right | constructor].
      eexists. split; [reflexivity | apply process_frame_keeps_invariant].
  - repeat constructor.
Qed.

(** X10. A session splits at any point: running the endpoint on two
    batches of arrivals in a row is running it on the first batch and, if
    it is still receiving, on the second batch from the world the first
    left; once the peer has disconnected or the socket is closed, what
    arrives later is not read and changes nothing. *)
Theorem session_splits (inbox1 inbox2 : list incoming) (w : world) :
  websocket_endpoint (inbox1 ++ inbox2) w =
    (let run1 := websocket_endpoint inbox1 w in
     match final_state run1 with
     | Receiving =>
         let run2 := websocket_endpoint inbox2 (final_world run1) in
         ((actions run1 ++ actions run2)%list, final_world run2, final_state run2)
     | _ => run1
     end).
Proof.
  cbv zeta. unfold actions, final_world, final_state.
  revert w. induction inbox1 as [| [data |] inbox1 IH]; intro w.
  - cbn. now destruct (websocket_endpoint inbox2 w) as [[sent w'] c].
  - cbn [app websocket_endpoint].
    destruct (handle_text data w) as [[sent | e] w'] eqn:E; [| reflexivity].
    rewrite IH.
    destruct (websocket_endpoint inbox1 w') as [[sent1 w1] c1]. cbn [fst snd].
    destruct c1; try reflexivity.
    destruct (websocket_endpoint inbox2 w1) as [[sent2 w2] c2]. cbn [fst snd].
    now rewrite app_assoc.
  - reflexivity.
Qed.

(** X11. Only frames reach the decoder, the estimator and the clock: a
    session in which no arrival is a frame message with data (pings,
    other objects, frames without data, texts that do not parse,
    non-objects) leaves the world exactly as it was. *)
Theorem frame_free_session_keeps_world (inbox : list incoming) (w : world) :
  Forall frame_free inbox ->
  final_world (websocket_endpoint inbox w) = w.
Proof.
  unfold final_world. intro Hfree. revert w.
  induction Hfree as [| [data |] inbox Hdata Hrest IH]; intro w;
    [reflexivity | | reflexivity].
  cbn [websocket_endpoint].
  destruct (handle_text data w) as [[sent | e] w'] eqn:E.
  - assert (Hw : w' = w).
    { revert E. rewrite handle_text_cases. cbn [frame_free] in Hdata.
      destruct (json_loads data) as [[| b | n | x | s | l | entries] | e];
        try discriminate.
      specialize (Hdata _ eq_refl). cbn [carries_frame] in Hdata.
      destruct (py_eq_str (dict_get entries "type" PyNone) "frame").
      - destruct (py_truthy (dict_get entries "data" PyNone));
          [discriminate | now intros [= _ <-]].
      - destruct (py_eq_str (dict_get entries "type" PyNone) "ping");
          now intros [= _ <-]. }
    subst w'. specialize (IH w).
    now destruct (websocket_endpoint inbox w) as [[sent' w''] c].
  - cbn. now apply handle_text_Raise in E.
Qed.

End SessionFacts.

(** ** Splitting the payload *)

Section SplitFacts.
Context {R : Runtime}.

Lemma split_nonempty (s : string) : split comma s <> [].
Proof.
  destruct s as [| c s]; cbn [split]; [discriminate |].
  destruct (Ascii.eqb c comma); [discriminate |].
  destruct (split comma s); discriminate.
Qed.

Lemma join_cons (c : ascii) (field : string) (fields : list string) :
  join comma (String c field :: fields) = String c (join comma (field :: fields)).
Proof. destruct fields; reflexivity. Qed.

(** X12. [split] loses nothing: joining the fields with commas gives the
    text back, no field contains a comma, and there is one field more
    than there are commas. *)
Theorem split_join_round_trip (s : string) :
  join comma (split comma s) = s
  /\ Forall (fun field => str_contains comma field = false) (split comma s)
  /\ length (split comma s) = S (count_char comma s).
Proof.
  induction s as [| c s (IHjoin & IHfields & IHlen)].
  - repeat split. repeat constructor.
  - cbn [split count_char str_contains].
    destruct (Ascii.eqb_spec c comma) as [-> | Hc].
    + repeat split.
      * pose proof (split_nonempty s) as Hne.
        cbn [join]. destruct (split comma s) as [| f fs]; [contradiction |].
        now rewrite IHjoin.
      * constructor; [reflexivity | exact IHfields].
      * cbn [length]. now rewrite IHlen.
    + pose proof (split_nonempty s) as Hne.
      destruct (split comma s) as [| f fs]; [contradiction |].
      repeat split.
      * now rewrite join_cons, IHjoin.
      * inversion IHfields as [| ? ? Hf Hfs]; subst. constructor; [| exact Hfs].
        cbn [str_contains]. now rewrite (proj2 (Ascii.eqb_neq c comma) Hc).
      * exact IHlen.
Qed.

Lemma first_comma (s : string) :
  str_contains comma s = true ->
  exists pre rest, s = pre ++ String comma rest /\ str_contains comma pre = false.
Proof.
  induction s as [| c s IH]; cbn [str_contains]; [discriminate |].
  destruct (Ascii.eqb_spec c comma) as [-> | Hc].
  - intros _. now exists "", s.
  - intro H. destruct (IH H) as (pre & rest & -> & Hpre).
    exists (String c pre), rest. split; [reflexivity |].
    cbn [str_contains]. now rewrite (proj2 (Ascii.eqb_neq c comma) Hc).
Qed.

Lemma split_head_is_prefix (s : string) :
  exists field fields post,
    split comma s = field :: fields /\ s = field ++ post
    /\ str_contains comma field = false.
Proof.
  induction s as [| c s (f & fs & post & Hsplit & Hs & Hf)].
  - now exists "", [], "".
  - cbn [split]. destruct (Ascii.eqb_spec c comma) as [-> | Hc].
    + now exists "", (split comma s), (String comma s).
    + rewrite Hsplit. exists (String c f), fs, post.
      split; [reflexivity |]. split; [now rewrite Hs at 1 |].
      cbn [str_contains]. now rewrite (proj2 (Ascii.eqb_neq c comma) Hc).
Qed.

(** X13. For every string payload the argument of [b64decode] is defined
    (the index 1 never fails), it is a piece of the payload, and it never
    contains a comma. *)
Theorem b64decode_argument_is_comma_free (s : string) :
  exists payload pre post,
    b64decode_argument (PyStr s) = Ok (PyStr payload)
    /\ s = pre ++ payload ++ post
    /\ str_contains comma payload = false.
Proof.
  unfold b64decode_argument. cbn [contains_comma second_field].
  destruct (str_contains comma s) eqn:Hs.
  - destruct (first_comma s Hs) as (pre & rest & -> & Hpre).
    rewrite split_at_first_separator by exact Hpre.
    destruct (split_head_is_prefix rest) as (f & fs & post & -> & -> & Hf).
    exists f, (pre ++ String comma ""), post. repeat split; [| exact Hf].
    clear. induction pre as [| c pre IH]; [reflexivity |].
    change (String c pre ++ ?x) with (String c (pre ++ x)). now rewrite IH.
  - exists s, "", "". repeat split; [| exact Hs].
    cbn. now rewrite append_empty_r.
Qed.

End SplitFacts.

(** ** Start-up *)

Section StartUpFacts.
Context {H : Host}.

Lemma install_from_clone_runs (m : machine) :
  clone_runs (snd (install_from_clone m)) = (if path_exists m then 0 else 1)%nat.
Proof.
  unfold install_from_clone. destruct (path_exists m).
  - destruct (import_gaze_tracking (sys_path_insert m)) as [[[] | e] m2]; reflexivity.
  - destruct (git_clone m) as [[e |] m1]; [reflexivity |].
    destruct (import_gaze_tracking (sys_path_insert m1)) as [[[] | e] m2]; reflexivity.
Qed.

Lemma clone_runs_app (l1 l2 : list install_event) :
  clone_runs (l1 ++ l2) = (clone_runs l1 + clone_runs l2)%nat.
Proof.
  induction l1 as [| [line |] l1 IH]; cbn [app clone_runs]; [reflexivity | exact IH |].
  now rewrite IH.
Qed.

(** X14. Start-up runs [git clone] at most once, and only when the first
    import raised [ImportError] and no [GazeTracking] directory exists: a
    library that imports, and a checkout that is already there, are never
    cloned over. *)
Theorem clone_only_when_needed (m : machine) :
  clone_runs (snd (install_gaze_tracking m)) <= 1
  /\ (clone_runs (snd (install_gaze_tracking m)) = 1 ->
      exists e,
        fst (import_gaze_tracking m) = Raise e
        /\ is_ImportError e = true
        /\ path_exists (snd (import_gaze_tracking m)) = false).
Proof.
  unfold install_gaze_tracking.
  destruct (import_gaze_tracking m) as [[[] | e] m1]; cbn [fst snd];
    [split; [cbn; lia | discriminate] |].
  destruct (is_ImportError e) eqn:He; [| split; [cbn; lia | discriminate]].
  pose proof (install_from_clone_runs m1) as Hruns.
  destruct (install_from_clone m1) as [[[b | e'] m2] ran]; cbn [fst snd] in *;
    cbn [clone_runs]; rewrite ?clone_runs_app; cbn [clone_runs];
    rewrite ?Nat.add_0_r, Hruns;
    (destruct (path_exists m1); split; [lia | | lia |]);
    first [discriminate | intros _; now exists e].
Qed.


End StartUpFacts.

(** ** Lower bounds through the rounding *)

(** The counterpart of the upper bounds: a value of at least [2^k] is
    rounded to a number of at least [2^k].  With it, a ratio that is a
    half or more away from the centre gives the score 0.0. *)
Section Binary64LowerBounds.
#[local] Open Scope Z_scope.

























End Binary64LowerBounds.


Section EdgeFacts.
Context {R : Runtime}.


End EdgeFacts.

(** ** The further properties on the small runtimes *)


(** A frame on the estimator that locates nothing. *)
Lemma unlocated_gaze_scores_half_witness :
  process_frame (R := unlocated_runtime) (PyStr "QUJD")
    (World (R := unlocated_runtime) false [] 0)
  = (<["attention_score" := PyFloat 0.5]> (gaze_record 0 (fun _ => PyNone)),
     World (R := unlocated_runtime) false (frame_calls "QUJD") 1).
Proof.
  apply (unlocated_gaze_scores_half (R := unlocated_runtime)
           (PyStr "QUJD") "QUJD" "QUJD" "QUJD" "QUJD" false (fun _ => PyNone)
           (World (R := unlocated_runtime) false [] 0));
    try reflexivity.
  now left.
Defined.



(** A session of a ping, an unknown object, an empty object and a text
    that does not parse. *)
Lemma frame_free_session_keeps_world_witness :
  final_world
    (websocket_endpoint (R := demo_runtime)
       [Recv ping_text; Recv other_text; Recv "{}"; Recv "oops"; Recv ping_text]
       demo_world)
  = demo_world.
Proof.
  apply (frame_free_session_keeps_world (R := demo_runtime)).
  repeat constructor;
    intros message Hparse; vm_compute in Hparse;
    first [discriminate Hparse | injection Hparse as <-; reflexivity].
Defined.

